(** * examplesource/c/main.c: a feature-gated connection bootstrap

    The translation unit is a single function, [main], whose body is one
    conditional group: with [ENABLE_NETWORKING] defined it calls
    [printDebug] and then [makeConnection]; otherwise an [#error]
    directive stops the build.  [printDebug] and [makeConnection] come
    from [logging.h] and [network.h], which the translation unit only
    includes: their behaviour is a parameter of the development. *)

From Stdlib Require Import ZArith String List.
From stdpp Require Import gmap strings list.
Import ListNotations.

Local Open Scope string_scope.
Local Open Scope list_scope.

Set Warnings "-register-all".

(** ** The source text, as the preprocessor sees it *)

(** An argument of a call: a string literal, as on line 7, or an
    element [x[i]] of the argument vector, read through a parameter
    [x] of the enclosing function.  The file has only the first. *)
Inductive arg : Set :=
| StrLit (s : string)
| ArgvAt (x : string) (i : nat).

(** An expression statement [callee(args);].  The value of the call
    expression is discarded. *)
Inductive stmt : Set :=
| CallStmt (callee : string) (args : list arg).

(** A line group inside a function body: plain code, an
    [#ifdef M ... #else ... #endif] group, or an [#error] directive. *)
Inductive line : Set :=
| Code (s : stmt)
| Ifdef (macro : string) (thn els : list line)
| ErrorDirective (msg : string).

Record fundef : Set := {
  ret_type : string;
  fun_name : string;
  params : list (string * string);
  body : list line
}.

Definition ENABLE_NETWORKING : string := "ENABLE_NETWORKING".

Definition log_message : string := "Connecting to network.".

Definition disabled_diagnostic : string := "Network connection disabled!".

Definition log_call : stmt := CallStmt "printDebug" [StrLit log_message].

Definition connect_call : stmt := CallStmt "makeConnection" [].

(** [int main() { ... }], lines 4 to 12 of main.c. *)
Definition main : fundef := {|
  ret_type := "int";
  fun_name := "main";
  params := [];
  body :=
    [ Ifdef ENABLE_NETWORKING
        [ Code log_call; Code connect_call ]
        [ ErrorDirective disabled_diagnostic ] ]
|}.

(** [#include "logging.h"] and [#include "network.h"], lines 1 and 2:
    the headers that declare the two callees. *)
Definition includes : list string := ["logging.h"; "network.h"].

(** ** Preprocessing and the build *)

(** The macro table of a build: every macro defined on the command line
    ([-DNAME] or [-DNAME=text]) with its replacement text.  Code lines
    are carried over as written, so a table stands for a build that
    leaves the identifiers of the file ([main], [printDebug],
    [makeConnection]) alone. *)
Abbreviation macros := (gmap string string).

Definition defined (D : macros) (m : string) : bool :=
  bool_decide (is_Some (D !! m)).

(** Outcome of a translation phase: the surviving code, or the message
    of the first [#error] directive met in a live group. *)
Inductive phase (A : Type) : Type :=
| Passed (a : A)
| Fatal (diagnostic : string).
Arguments Passed {A} a.
Arguments Fatal {A} diagnostic.

Definition phase_bind {A B} (x : phase A) (k : A -> phase B) : phase B :=
  match x with
  | Passed a => k a
  | Fatal d => Fatal d
  end.

(** Conditional inclusion: a group whose condition fails is skipped
    whole, directives included; [#ifdef] asks only whether the macro is
    defined, never what it expands to. *)
Fixpoint preprocess_line (D : macros) (l : line) : phase (list stmt) :=
  match l with
  | Code s => Passed [s]
  | Ifdef m thn els =>
      let group :=
        fix group (ls : list line) : phase (list stmt) :=
          match ls with
          | [] => Passed []
          | l' :: ls' =>
              phase_bind (preprocess_line D l') (fun a =>
              phase_bind (group ls') (fun b => Passed (a ++ b)))
          end in
      if defined D m then group thn else group els
  | ErrorDirective msg => Fatal msg
  end.

Fixpoint preprocess (D : macros) (ls : list line) : phase (list stmt) :=
  match ls with
  | [] => Passed []
  | l :: ls' =>
      phase_bind (preprocess_line D l) (fun a =>
      phase_bind (preprocess D ls') (fun b => Passed (a ++ b)))
  end.

(** What a build leaves behind: a diagnostic and nothing else, or a
    binary whose entry point runs the preprocessed body of [main]. *)
Inductive build_result : Set :=
| BuildError (diagnostic : string)
| Binary (entry : list stmt).

Definition build (D : macros) : build_result :=
  match preprocess D (body main) with
  | Passed code => Binary code
  | Fatal d => BuildError d
  end.

Definition enabled_entry : list stmt := [log_call; connect_call].

(** ** Running the binary *)

(** What becomes of a call into a facility: the call comes back with a
    value (scalar results are read as integers; for a [void] callee the
    value carries nothing); or the callee blocks for ever and the
    process stays alive inside it; or the callee ends the process
    itself ([exit], [abort]) with a status. *)
Inductive reply : Set :=
| Returned (v : Z)
| NoReturn
| Ends (status : Z).

(** One observable action of the controller: a call that leaves
    [main], with its evaluated arguments. *)
Inductive event : Set :=
| Call (callee : string) (args : list arg).

(** How a run of the entry point ends: [main] returned and the process
    exited with that status; or the process is alive, blocked inside a
    callee; or a callee ended the process with that status. *)
Inductive final : Set :=
| Exited (status : Z)
| InCall
| Ended (status : Z).

Record run (W : Type) : Type := {
  trace : list event;
  outcome : final;
  world : W
}.
Arguments trace {W} r.
Arguments outcome {W} r.
Arguments world {W} r.

Definition call_of (s : stmt) : event :=
  match s with
  | CallStmt f args => Call f args
  end.

Definition callee_of (e : event) : string :=
  match e with
  | Call f _ => f
  end.

Definition args_of (e : event) : list arg :=
  match e with
  | Call _ args => args
  end.

(** The parameter through which a function sees the argument vector:
    the second of two, as in [int main(int argc, char *argv[])].  A
    function declared with an empty parameter list has none. *)
Definition argv_param (f : fundef) : option string :=
  match params f with
  | [_; (_, x)] => Some x
  | _ => None
  end.

(** An argument as the callee receives it.  A reference that the
    parameters of [f] do not resolve is left as written. *)
Definition bind_arg (f : fundef) (argv : list string) (a : arg) : arg :=
  match a with
  | StrLit s => StrLit s
  | ArgvAt x i =>
      match argv_param f, argv !! i with
      | Some y, Some s => if String.eqb x y then StrLit s else a
      | _, _ => a
      end
  end.

Definition bind_stmt (f : fundef) (argv : list string) (s : stmt) : stmt :=
  match s with
  | CallStmt c args => CallStmt c (map (bind_arg f argv) args)
  end.

Section Execution.

(** The state of everything outside the controller, and the linked
    definitions of the external functions, which read and change it. *)
Context {W : Type}.
Variable extern : string -> list arg -> W -> reply * W.

(** Statements run in order; the value of each call is dropped.
    Reaching the closing brace of [main] returns 0 (C99 5.1.2.2.3),
    which becomes the exit status. *)
Fixpoint exec (code : list stmt) (w : W) : run W :=
  match code with
  | [] => {| trace := []; outcome := Exited 0; world := w |}
  | CallStmt f args :: rest =>
      match extern f args w with
      | (Returned _, w') =>
          let r := exec rest w' in
          {| trace := Call f args :: trace r;
             outcome := outcome r;
             world := world r |}
      | (NoReturn, w') =>
          {| trace := [Call f args]; outcome := InCall; world := w' |}
      | (Ends s, w') =>
          {| trace := [Call f args]; outcome := Ended s; world := w' |}
      end
  end.

(** Process start-up.  The runtime hands the argument vector to
    [main]; what the body reads of it, through the parameters that
    [main] declares, is filled in before the body runs. *)
Definition run_process (entry : list stmt) (argv : list string) (w : W)
  : run W :=
  exec (map (bind_stmt main argv) entry) w.

(** Every call of [code], started in [w], comes back to [main]. *)
Fixpoint all_return (code : list stmt) (w : W) : Prop :=
  match code with
  | [] => True
  | CallStmt f args :: rest =>
      exists v w', extern f args w = (Returned v, w') /\ all_return rest w'
  end.

End Execution.

Definition count_calls (f : string) (tr : list event) : nat :=
  length (List.filter (fun e => String.eqb (callee_of e) f) tr).

Definition log_event : event := Call "printDebug" [StrLit log_message].

Definition connect_event : event := Call "makeConnection" [].

(** Exit status 0 reports success to the host environment, any other
    status reports failure; a process that is still alive reports
    neither. *)
Definition exit_success (o : final) : bool :=
  match o with
  | Exited s | Ended s => Z.eqb s 0
  | InCall => false
  end.

Definition exit_failure (o : final) : bool :=
  match o with
  | Exited s | Ended s => negb (Z.eqb s 0)
  | InCall => false
  end.

(** How a run ends whose last call is answered by [r]: on the closing
    brace of [main] when the call comes back, inside the callee
    otherwise. *)
Definition ends_as (r : reply) : final :=
  match r with
  | Returned _ => Exited 0
  | NoReturn => InCall
  | Ends s => Ended s
  end.

(** ** Test doubles and the flag settings used below *)

(** A recording stub, as a call-order test would link it: the world is
    the list of callee names seen so far; [makeConnection] answers
    [conn], every other callee answers [log]. *)
Definition stub (log conn : reply)
  : string -> list arg -> list string -> reply * list string :=
  fun f _ seen =>
    (if String.eqb f "makeConnection" then conn else log, seen ++ [f]).

(** [-DENABLE_NETWORKING=1], [-DENABLE_NETWORKING=0], and no [-D]. *)
Definition flag_on : macros := {[ ENABLE_NETWORKING := "1" ]}.

Definition flag_zero : macros := {[ ENABLE_NETWORKING := "0" ]}.

Definition flag_absent : macros := ∅.

(** The usual C convention for a status result: 0 is success, anything
    else is a failure code. *)
Definition nonzero_is_failure (v : Z) : bool := negb (Z.eqb v 0).

(** ** The contracts that the code does not meet as worded *)

(** The flag reads as false: it is defined, with replacement text 0. *)
Definition flag_false (D : macros) : Prop :=
  D !! ENABLE_NETWORKING = Some "0".

Definition flag_missing (D : macros) : Prop :=
  D !! ENABLE_NETWORKING = None.

(** A false or absent flag fails the build with the diagnostic. *)
Definition false_or_absent_fails_build : Prop :=
  forall D : macros,
    flag_false D \/ flag_missing D ->
    build D = BuildError disabled_diagnostic.

(** The exit status follows the connection result: success for a
    result that signals success, failure for one that signals failure,
    where [failed] tells the two kinds of returned value apart. *)
Definition exit_follows_connection (failed : Z -> bool) : Prop :=
  forall (W : Type) (extern : string -> list arg -> W -> reply * W)
         (D : macros) (p : list stmt) (w w1 w2 : W) (v vc : Z),
    build D = Binary p ->
    extern "printDebug" [StrLit log_message] w = (Returned v, w1) ->
    extern "makeConnection" [] w1 = (Returned vc, w2) ->
    (failed vc = false -> exit_success (outcome (exec extern p w)) = true) /\
    (failed vc = true -> exit_failure (outcome (exec extern p w)) = true).

(** Every run makes the logging call and the connection call, once
    each, in that order. *)
Definition every_run_logs_then_connects : Prop :=
  forall (W : Type) (extern : string -> list arg -> W -> reply * W)
         (D : macros) (p : list stmt) (w : W),
    build D = Binary p ->
    trace (exec extern p w) = [log_event; connect_event] /\
    count_calls "printDebug" (trace (exec extern p w)) = 1 /\
    count_calls "makeConnection" (trace (exec extern p w)) = 1.

(** Whatever becomes of the logging call, the connection call is still
    made and the run ends as the connection call makes it end. *)
Definition logging_never_aborts : Prop :=
  forall (W : Type) (extern : string -> list arg -> W -> reply * W)
         (D : macros) (p : list stmt) (w w1 : W) (r : reply),
    build D = Binary p ->
    extern "printDebug" [StrLit log_message] w = (r, w1) ->
    In connect_event (trace (exec extern p w)) /\
    outcome (exec extern p w)
      = ends_as (fst (extern "makeConnection" [] w1)).

(** Every run has exactly two observable actions. *)
Definition every_run_has_two_effects : Prop :=
  forall (W : Type) (extern : string -> list arg -> W -> reply * W)
         (D : macros) (p : list stmt) (w : W) (argv : list string),
    build D = Binary p ->
    length (trace (run_process extern p argv w)) = 2.

(** ** The build *)

Lemma defined_lookup (D : macros) (m : string) :
  defined D m = true <-> exists t, D !! m = Some t.
Proof.
  unfold defined. rewrite bool_decide_eq_true. reflexivity.
Qed.

Lemma defined_None (D : macros) (m : string) :
  defined D m = false <-> D !! m = None.
Proof.
  unfold defined. rewrite bool_decide_eq_false, eq_None_not_Some.
  reflexivity.
Qed.

(** The build is decided by the flag's presence alone. *)
Lemma build_by_flag (D : macros) :
  build D =
    if defined D ENABLE_NETWORKING
    then Binary enabled_entry
    else BuildError disabled_diagnostic.
Proof.
  unfold build. cbn [body main preprocess preprocess_line].
  destruct (defined D ENABLE_NETWORKING); reflexivity.
Qed.

Lemma build_defined (D : macros) (t : string) :
  D !! ENABLE_NETWORKING = Some t -> build D = Binary enabled_entry.
Proof.
  intros Ht. rewrite build_by_flag.
  assert (defined D ENABLE_NETWORKING = true) as ->
    by (apply defined_lookup; eauto).
  reflexivity.
Qed.

Lemma build_undefined (D : macros) :
  D !! ENABLE_NETWORKING = None -> build D = BuildError disabled_diagnostic.
Proof.
  intros Hn. rewrite build_by_flag.
  apply defined_None in Hn. rewrite Hn. reflexivity.
Qed.

(** Any binary that a build produces is the Enabled variant. *)
Lemma build_binary_inv (D : macros) (p : list stmt) :
  build D = Binary p ->
  p = enabled_entry /\ exists t, D !! ENABLE_NETWORKING = Some t.
Proof.
  rewrite build_by_flag.
  destruct (defined D ENABLE_NETWORKING) eqn:Hd; [|discriminate].
  intros [= <-]. split; [reflexivity|]. by apply defined_lookup.
Qed.

Example build_flag_on : build flag_on = Binary enabled_entry.
Proof. vm_compute. reflexivity. Qed.

Example build_flag_absent : build flag_absent = BuildError disabled_diagnostic.
Proof. vm_compute. reflexivity. Qed.

(** ** Straight-line execution *)

Section ExecFacts.

Context {W : Type}.
Variable extern : string -> list arg -> W -> reply * W.

(** The calls a run makes are an initial segment of the calls
    written in the code, in the order written. *)
Lemma exec_trace_prefix (code : list stmt) (w : W) :
  trace (exec extern code w) `prefix_of` map call_of code.
Proof.
  revert w. induction code as [|[f args] rest IH]; intros w; cbn.
  - reflexivity.
  - destruct (extern f args w) as [[v| |s] w']; cbn.
    + apply prefix_cons, IH.
    + apply prefix_cons, prefix_nil.
    + apply prefix_cons, prefix_nil.
Qed.

(** A run never makes more calls than the code has statements. *)
Lemma exec_trace_length (code : list stmt) (w : W) :
  length (trace (exec extern code w)) <= length code.
Proof.
  pose proof (prefix_length _ _ (exec_trace_prefix code w)) as H.
  by rewrite length_map in H.
Qed.

(** When every call comes back, the run makes every call once, in
    order, and [main] returns 0. *)
Lemma exec_all_return (code : list stmt) (w : W) :
  all_return extern code w ->
  trace (exec extern code w) = map call_of code /\
  outcome (exec extern code w) = Exited 0.
Proof.
  revert w. induction code as [|[f args] rest IH]; intros w; cbn.
  - intros _. split; reflexivity.
  - intros (v & w' & Hcall & Hrest). rewrite Hcall. cbn.
    destruct (IH w' Hrest) as [-> ->]. split; reflexivity.
Qed.

(** The only status [main] itself can exit with is 0. *)
Lemma exec_exit_status (code : list stmt) (w : W) (s : Z) :
  outcome (exec extern code w) = Exited s -> s = 0%Z.
Proof.
  revert w. induction code as [|[f args] rest IH]; intros w; cbn.
  - by intros [= <-].
  - destruct (extern f args w) as [[v| |s'] w']; cbn.
    + apply IH.
    + discriminate.
    + discriminate.
Qed.

(** The Enabled entry point, unfolded once the logging call is back. *)
Lemma exec_enabled_after_log (w w1 : W) (v : Z) :
  extern "printDebug" [StrLit log_message] w = (Returned v, w1) ->
  exec extern enabled_entry w =
    {| trace := [log_event; connect_event];
       outcome := ends_as (fst (extern "makeConnection" [] w1));
       world := snd (extern "makeConnection" [] w1) |}.
Proof.
  intros Hlog. cbn. rewrite Hlog.
  destruct (extern "makeConnection" [] w1) as [[vc| |s] w2]; reflexivity.
Qed.

(** The Enabled entry point when the logging call is not back. *)
Lemma exec_enabled_log_stops (w w1 : W) (r : reply) :
  extern "printDebug" [StrLit log_message] w = (r, w1) ->
  (forall v : Z, r <> Returned v) ->
  exec extern enabled_entry w =
    {| trace := [log_event]; outcome := ends_as r; world := w1 |}.
Proof.
  intros Hlog Hr. cbn. rewrite Hlog.
  destruct r as [v| |s]; [by destruct (Hr v) | reflexivity | reflexivity].
Qed.

Lemma exec_enabled_trace (w w1 : W) (v : Z) :
  extern "printDebug" [StrLit log_message] w = (Returned v, w1) ->
  trace (exec extern enabled_entry w) = [log_event; connect_event].
Proof.
  intros Hlog. rewrite (exec_enabled_after_log _ _ _ Hlog). reflexivity.
Qed.

(** In every run, returning callees or not, the logging call comes
    first and at most the connection call follows it. *)
Lemma exec_enabled_shapes (w : W) :
  trace (exec extern enabled_entry w) = [log_event] \/
  trace (exec extern enabled_entry w) = [log_event; connect_event].
Proof.
  cbn. destruct (extern "printDebug" _ w) as [[v| |s] w1]; cbn.
  - right.
    destruct (extern "makeConnection" [] w1) as [[vc| |s] w2]; reflexivity.
  - by left.
  - by left.
Qed.

(** A function without a parameter for the argument vector hands
    every statement to the run as written. *)
Lemma bind_stmt_no_argv_param (f : fundef) (argv : list string) (s : stmt) :
  argv_param f = None -> bind_stmt f argv s = s.
Proof.
  intros Hf. destruct s as [c args]. cbn. f_equal.
  induction args as [|a args IH]; [reflexivity|]. cbn. rewrite IH. f_equal.
  destruct a as [lit|x i]; [reflexivity|]. cbn. by rewrite Hf.
Qed.

Lemma run_process_no_argv_param (code : list stmt) (argv : list string)
    (w : W) :
  run_process extern code argv w = exec extern code w.
Proof.
  unfold run_process. f_equal.
  induction code as [|s code IH]; [reflexivity|]. cbn. rewrite IH. f_equal.
  by apply bind_stmt_no_argv_param.
Qed.

End ExecFacts.

Lemma count_calls_enabled :
  count_calls "printDebug" [log_event; connect_event] = 1 /\
  count_calls "makeConnection" [log_event; connect_event] = 1.
Proof. split; reflexivity. Qed.

Lemma stub_log (log conn : reply) (args : list arg) (seen : list string) :
  stub log conn "printDebug" args seen = (log, seen ++ ["printDebug"]).
Proof. reflexivity. Qed.

Lemma stub_connect (log conn : reply) (args : list arg) (seen : list string) :
  stub log conn "makeConnection" args seen = (conn, seen ++ ["makeConnection"]).
Proof. reflexivity. Qed.

(** ** The Enabled variant: calls and their order *)

(** With a logging call that blocks for ever the connection call is
    never made: not every run makes both calls. *)
Lemma C1_counterexample_logging_blocks : ~ every_run_logs_then_connects.
Proof.
  intros H.
  destruct (H (list string) (stub NoReturn (Returned 0)) flag_on
              enabled_entry []) as (Htr & _ & _).
  - vm_compute. reflexivity.
  - vm_compute in Htr. discriminate Htr.
Qed.

(** C1 (amended): in every run of an Enabled build in which the
    logging call returns, the calls made are exactly the logging call
    followed by the connection call: one of each, in that order,
    nothing repeated and nothing in between. *)
Theorem C1_log_once_then_connect_once
    (W : Type) (extern : string -> list arg -> W -> reply * W)
    (D : macros) (p : list stmt) (w w1 : W) (v : Z) :
  build D = Binary p ->
  extern "printDebug" [StrLit log_message] w = (Returned v, w1) ->
  trace (exec extern p w) = [log_event; connect_event] /\
  count_calls "printDebug" (trace (exec extern p w)) = 1 /\
  count_calls "makeConnection" (trace (exec extern p w)) = 1.
Proof.
  intros Hb Hlog. apply build_binary_inv in Hb as [-> _].
  rewrite (exec_enabled_trace extern w w1 v Hlog).
  split; [reflexivity | apply count_calls_enabled].
Qed.

Lemma C1_witness :
  trace (exec (stub (Returned 0) (Returned 0)) enabled_entry [])
    = [log_event; connect_event] /\
  count_calls "printDebug"
    (trace (exec (stub (Returned 0) (Returned 0)) enabled_entry [])) = 1 /\
  count_calls "makeConnection"
    (trace (exec (stub (Returned 0) (Returned 0)) enabled_entry [])) = 1.
Proof.
  apply (C1_log_once_then_connect_once (list string)
           (stub (Returned 0) (Returned 0)) flag_on enabled_entry
           [] ["printDebug"] 0%Z).
  - vm_compute. reflexivity.
  - reflexivity.
Defined.

(** C4: in every run of an Enabled build the first call is the logging
    call with the constant message "Connecting to network.", and no
    logging call in the run carries any other argument. *)
Theorem C4_fixed_log_message
    (W : Type) (extern : string -> list arg -> W -> reply * W)
    (D : macros) (p : list stmt) (w : W) :
  build D = Binary p ->
  head (trace (exec extern p w))
    = Some (Call "printDebug" [StrLit "Connecting to network."]) /\
  forall e : event,
    In e (trace (exec extern p w)) ->
    callee_of e = "printDebug" ->
    args_of e = [StrLit "Connecting to network."].
Proof.
  intros Hb. apply build_binary_inv in Hb as [-> _].
  destruct (exec_enabled_shapes extern w) as [-> | ->].
  - split; [reflexivity|]. intros e [<- | []] _. reflexivity.
  - split; [reflexivity|]. intros e [<- | [<- | []]] He.
    + reflexivity.
    + discriminate He.
Qed.

Lemma C4_witness :
  head (trace (exec (stub NoReturn NoReturn) enabled_entry []))
    = Some (Call "printDebug" [StrLit "Connecting to network."]) /\
  forall e : event,
    In e (trace (exec (stub NoReturn NoReturn) enabled_entry [])) ->
    callee_of e = "printDebug" ->
    args_of e = [StrLit "Connecting to network."].
Proof.
  apply (C4_fixed_log_message (list string) (stub NoReturn NoReturn)
           flag_on enabled_entry []).
  vm_compute. reflexivity.
Defined.

(** With a logging call that ends the process with status 3 the
    connection call is never made and the process reports failure. *)
Lemma C5_counterexample_logging_exits : ~ logging_never_aborts.
Proof.
  intros H.
  destruct (H (list string) (stub (Ends 3) (Returned 0)) flag_on
              enabled_entry [] ["printDebug"] (Ends 3)) as [_ Hout].
  - vm_compute. reflexivity.
  - reflexivity.
  - vm_compute in Hout. discriminate Hout.
Qed.

(** C5 (amended): the connection call is made exactly when the logging
    call returns, and then, whatever value the logging call returned,
    the run ends as the connection call alone makes it end.  A logging
    call that does not return stops the sequence before the connection
    call. *)
Theorem C5_connection_attempted_iff_logging_returns
    (W : Type) (extern : string -> list arg -> W -> reply * W)
    (D : macros) (p : list stmt) (w : W) :
  build D = Binary p ->
  (In connect_event (trace (exec extern p w)) <->
   exists (v : Z) (w1 : W),
     extern "printDebug" [StrLit log_message] w = (Returned v, w1)) /\
  (forall (v : Z) (w1 : W),
     extern "printDebug" [StrLit log_message] w = (Returned v, w1) ->
     outcome (exec extern p w)
       = ends_as (fst (extern "makeConnection" [] w1))).
Proof.
  intros Hb. apply build_binary_inv in Hb as [-> _]. split.
  - destruct (extern "printDebug" [StrLit log_message] w)
      as [r w1] eqn:Hlog.
    destruct r as [v| |s].
    + rewrite (exec_enabled_trace extern w w1 v Hlog). split.
      * intros _. by exists v, w1.
      * intros _. right. by left.
    + rewrite (exec_enabled_log_stops extern w w1 NoReturn Hlog)
        by discriminate.
      split.
      * intros [He | []]. discriminate He.
      * intros (v & w1' & Hv). discriminate Hv.
    + rewrite (exec_enabled_log_stops extern w w1 (Ends s) Hlog)
        by discriminate.
      split.
      * intros [He | []]. discriminate He.
      * intros (v & w1' & Hv). discriminate Hv.
  - intros v w1 Hlog.
    rewrite (exec_enabled_after_log extern w w1 v Hlog). reflexivity.
Qed.

Lemma C5_witness :
  (In connect_event
     (trace (exec (stub (Returned (-1)) (Ends 5)) enabled_entry [])) <->
   exists (v : Z) (w1 : list string),
     stub (Returned (-1)) (Ends 5) "printDebug" [StrLit log_message] []
       = (Returned v, w1)) /\
  (forall (v : Z) (w1 : list string),
     stub (Returned (-1)) (Ends 5) "printDebug" [StrLit log_message] []
       = (Returned v, w1) ->
     outcome (exec (stub (Returned (-1)) (Ends 5)) enabled_entry [])
       = ends_as (fst (stub (Returned (-1)) (Ends 5)
                         "makeConnection" [] w1))).
Proof.
  apply (C5_connection_attempted_iff_logging_returns (list string)
           (stub (Returned (-1)) (Ends 5)) flag_on enabled_entry []).
  vm_compute. reflexivity.
Defined.

(** C6: once the logging call is back, the connection call is made
    exactly once and the logging call is not made again, whatever the
    connection call does: return a success value, return a failure
    value, or not return. *)
Theorem C6_no_retry_no_second_log
    (W : Type) (extern : string -> list arg -> W -> reply * W)
    (D : macros) (p : list stmt) (w w1 w2 : W) (v : Z) (r : reply) :
  build D = Binary p ->
  extern "printDebug" [StrLit log_message] w = (Returned v, w1) ->
  extern "makeConnection" [] w1 = (r, w2) ->
  count_calls "makeConnection" (trace (exec extern p w)) = 1 /\
  count_calls "printDebug" (trace (exec extern p w)) = 1.
Proof.
  intros Hb Hlog _. apply build_binary_inv in Hb as [-> _].
  rewrite (exec_enabled_trace extern w w1 v Hlog).
  split; apply count_calls_enabled.
Qed.

Lemma C6_witness :
  count_calls "makeConnection"
    (trace (exec (stub (Returned 0) (Returned 1)) enabled_entry [])) = 1 /\
  count_calls "printDebug"
    (trace (exec (stub (Returned 0) (Returned 1)) enabled_entry [])) = 1.
Proof.
  apply (C6_no_retry_no_second_log (list string)
           (stub (Returned 0) (Returned 1)) flag_on enabled_entry
           [] ["printDebug"] ["printDebug"; "makeConnection"] 0%Z
           (Returned 1)).
  - vm_compute. reflexivity.
  - reflexivity.
  - reflexivity.
Defined.

(** With a logging call that ends the process the run has one
    observable action, not two. *)
Lemma C7_counterexample_one_effect : ~ every_run_has_two_effects.
Proof.
  intros H.
  specialize (H (list string) (stub (Ends 3) (Returned 0)) flag_on
                enabled_entry [] ["prog"]).
  assert (build flag_on = Binary enabled_entry) as Hb
    by (vm_compute; reflexivity).
  specialize (H Hb). vm_compute in H. discriminate H.
Qed.

(** C7 (amended): no run of an Enabled build reads the process
    arguments: the run is the same for every argument vector.  A run
    in which the logging call returns has exactly two observable
    actions, the debug-log call and the connection call. *)
Theorem C7_two_effects_no_input
    (W : Type) (extern : string -> list arg -> W -> reply * W)
    (D : macros) (p : list stmt) (w : W) :
  build D = Binary p ->
  (forall argv argv' : list string,
     run_process extern p argv w = run_process extern p argv' w) /\
  (forall (argv : list string) (v : Z) (w1 : W),
     extern "printDebug" [StrLit log_message] w = (Returned v, w1) ->
     trace (run_process extern p argv w) = [log_event; connect_event] /\
     length (trace (run_process extern p argv w)) = 2).
Proof.
  intros Hb. apply build_binary_inv in Hb as [-> _]. split.
  - intros argv argv'. by rewrite !run_process_no_argv_param.
  - intros argv v w1 Hlog. rewrite run_process_no_argv_param.
    rewrite (exec_enabled_trace extern w w1 v Hlog).
    split; reflexivity.
Qed.

Lemma C7_witness :
  (forall argv argv' : list string,
     run_process (stub (Returned 0) NoReturn) enabled_entry argv [] =
     run_process (stub (Returned 0) NoReturn) enabled_entry argv' []) /\
  (forall (argv : list string) (v : Z) (w1 : list string),
     stub (Returned 0) NoReturn "printDebug" [StrLit log_message] []
       = (Returned v, w1) ->
     trace (run_process (stub (Returned 0) NoReturn) enabled_entry argv [])
       = [log_event; connect_event] /\
     length
       (trace (run_process (stub (Returned 0) NoReturn) enabled_entry argv []))
       = 2).
Proof.
  apply (C7_two_effects_no_input (list string)
           (stub (Returned 0) NoReturn) flag_on enabled_entry []).
  vm_compute. reflexivity.
Defined.

(** ** The Enabled variant: how a run ends *)

(** C8: once the connection call has come back, with a value that
    signals success or one that signals failure, the process has
    exited; the connection call is the last action of the run and the
    world is as that call left it. *)
Theorem C8_done_after_connection
    (W : Type) (extern : string -> list arg -> W -> reply * W)
    (D : macros) (p : list stmt) (w w1 w2 : W) (v vc : Z) :
  build D = Binary p ->
  extern "printDebug" [StrLit log_message] w = (Returned v, w1) ->
  extern "makeConnection" [] w1 = (Returned vc, w2) ->
  (exists s : Z, outcome (exec extern p w) = Exited s) /\
  last (trace (exec extern p w)) = Some connect_event /\
  trace (exec extern p w) = [log_event; connect_event] /\
  world (exec extern p w) = w2.
Proof.
  intros Hb Hlog Hconn. apply build_binary_inv in Hb as [-> _].
  rewrite (exec_enabled_after_log extern w w1 v Hlog), Hconn. cbn.
  repeat split; try reflexivity. by exists 0%Z.
Qed.

Lemma C8_witness :
  (exists s : Z,
     outcome (exec (stub (Returned 0) (Returned 1)) enabled_entry [])
       = Exited s) /\
  last (trace (exec (stub (Returned 0) (Returned 1)) enabled_entry []))
    = Some connect_event /\
  trace (exec (stub (Returned 0) (Returned 1)) enabled_entry [])
    = [log_event; connect_event] /\
  world (exec (stub (Returned 0) (Returned 1)) enabled_entry [])
    = ["printDebug"; "makeConnection"].
Proof.
  apply (C8_done_after_connection (list string)
           (stub (Returned 0) (Returned 1)) flag_on enabled_entry
           [] ["printDebug"] ["printDebug"; "makeConnection"] 0%Z 1%Z).
  - vm_compute. reflexivity.
  - reflexivity.
  - reflexivity.
Defined.

(** C9: take two runs of Enabled builds in which both calls come back.
    Whatever the two connection calls returned, [main] returns the
    same value in both, 0: the exit status does not depend on the
    connection result. *)
Theorem C9_exit_status_independent_of_connection
    (W : Type) (extern extern' : string -> list arg -> W -> reply * W)
    (D D' : macros) (p p' : list stmt)
    (w w1 w2 w' w1' w2' : W) (v v' vc vc' : Z) :
  build D = Binary p ->
  build D' = Binary p' ->
  extern "printDebug" [StrLit log_message] w = (Returned v, w1) ->
  extern "makeConnection" [] w1 = (Returned vc, w2) ->
  extern' "printDebug" [StrLit log_message] w' = (Returned v', w1') ->
  extern' "makeConnection" [] w1' = (Returned vc', w2') ->
  outcome (exec extern p w) = outcome (exec extern' p' w') /\
  outcome (exec extern p w) = Exited 0.
Proof.
  intros Hb Hb' Hlog Hconn Hlog' Hconn'.
  apply build_binary_inv in Hb as [-> _].
  apply build_binary_inv in Hb' as [-> _].
  rewrite (exec_enabled_after_log extern w w1 v Hlog), Hconn.
  rewrite (exec_enabled_after_log extern' w' w1' v' Hlog'), Hconn'.
  split; reflexivity.
Qed.

Lemma C9_witness :
  outcome (exec (stub (Returned 0) (Returned 0)) enabled_entry []) =
  outcome (exec (stub (Returned 0) (Returned 1)) enabled_entry []) /\
  outcome (exec (stub (Returned 0) (Returned 0)) enabled_entry [])
    = Exited 0.
Proof.
  apply (C9_exit_status_independent_of_connection (list string)
           (stub (Returned 0) (Returned 0)) (stub (Returned 0) (Returned 1))
           flag_on flag_on enabled_entry enabled_entry
           [] ["printDebug"] ["printDebug"; "makeConnection"]
           [] ["printDebug"] ["printDebug"; "makeConnection"]
           0%Z 0%Z 0%Z 1%Z).
  - vm_compute. reflexivity.
  - vm_compute. reflexivity.
  - reflexivity.
  - reflexivity.
  - reflexivity.
  - reflexivity.
Defined.

(** C10: the entry point of an Enabled build is a fixed sequence of
    two call statements, neither of them a call of [main]; a run in
    which both calls come back ends with [main] returning, after
    exactly those two calls. *)
Theorem C10_straight_line_terminates
    (W : Type) (extern : string -> list arg -> W -> reply * W)
    (D : macros) (p : list stmt) (w w1 w2 : W) (v vc : Z) :
  build D = Binary p ->
  extern "printDebug" [StrLit log_message] w = (Returned v, w1) ->
  extern "makeConnection" [] w1 = (Returned vc, w2) ->
  p = [CallStmt "printDebug" [StrLit log_message];
       CallStmt "makeConnection" []] /\
  Forall (fun s => callee_of (call_of s) <> fun_name main) p /\
  (exists s : Z, outcome (exec extern p w) = Exited s) /\
  length (trace (exec extern p w)) = length p.
Proof.
  intros Hb Hlog Hconn. apply build_binary_inv in Hb as [-> _].
  assert (all_return extern enabled_entry w) as Hall.
  { cbn. exists v, w1. split; [exact Hlog|].
    exists vc, w2. split; [exact Hconn|exact I]. }
  destruct (exec_all_return extern enabled_entry w Hall) as [Htr Hout].
  split; [reflexivity|]. split; [|split].
  - repeat constructor; cbn; discriminate.
  - exists 0%Z. exact Hout.
  - rewrite Htr. apply length_map.
Qed.

Lemma C10_witness :
  enabled_entry = [CallStmt "printDebug" [StrLit log_message];
                   CallStmt "makeConnection" []] /\
  Forall (fun s => callee_of (call_of s) <> fun_name main) enabled_entry /\
  (exists s : Z,
     outcome (exec (stub (Returned 0) (Returned 0)) enabled_entry [])
       = Exited s) /\
  length (trace (exec (stub (Returned 0) (Returned 0)) enabled_entry []))
    = length enabled_entry.
Proof.
  apply (C10_straight_line_terminates (list string)
           (stub (Returned 0) (Returned 0)) flag_on enabled_entry
           [] ["printDebug"] ["printDebug"; "makeConnection"] 0%Z 0%Z).
  - vm_compute. reflexivity.
  - reflexivity.
  - reflexivity.
Defined.

(** ** The build gate *)

(** A flag defined as 0 is false and still builds the Enabled variant:
    the statement for a false or absent flag does not hold. *)
Lemma C2_counterexample_flag_zero : ~ false_or_absent_fails_build.
Proof.
  intros H. specialize (H flag_zero).
  assert (build flag_zero = Binary enabled_entry) as Hb
    by (vm_compute; reflexivity).
  rewrite Hb in H. discriminate H. left. vm_compute. reflexivity.
Qed.

(** C2 (amended): when the capability flag is absent, that is
    [ENABLE_NETWORKING] is not defined, the build fails with the fatal
    diagnostic "Network connection disabled!", which names the
    capability, and no binary is produced. *)
Theorem C2_absent_flag_fails_build (D : macros) :
  D !! ENABLE_NETWORKING = None ->
  build D = BuildError "Network connection disabled!" /\
  String.prefix "Network connection" disabled_diagnostic = true /\
  forall p : list stmt, build D <> Binary p.
Proof.
  intros Hn. rewrite (build_undefined D Hn).
  split; [reflexivity|]. split; [reflexivity|]. discriminate.
Qed.

Lemma C2_witness :
  build flag_absent = BuildError "Network connection disabled!" /\
  String.prefix "Network connection" disabled_diagnostic = true /\
  forall p : list stmt, build flag_absent <> Binary p.
Proof.
  apply (C2_absent_flag_fails_build flag_absent).
  vm_compute. reflexivity.
Defined.

(** ** The exit status *)

(** With a stub whose [makeConnection] returns the failure code 1, the
    process still exits with status 0: the exit contract does not hold
    under the convention that a nonzero result is a failure. *)
Lemma C3_counterexample_failure_code :
  ~ exit_follows_connection nonzero_is_failure.
Proof.
  intros H.
  destruct (H (list string) (stub (Returned 0) (Returned 1)) flag_on
              enabled_entry [] ["printDebug"]
              ["printDebug"; "makeConnection"] 0%Z 1%Z) as [_ Hfail].
  - vm_compute. reflexivity.
  - reflexivity.
  - reflexivity.
  - specialize (Hfail eq_refl). vm_compute in Hfail. discriminate Hfail.
Qed.

(** C3 (amended): in the Enabled variant, whenever the connection call
    comes back the process exits with status 0, which reports success,
    both when the returned value signals success and when it signals
    failure: the value is dropped, not propagated. *)
Theorem C3_exit_success_whatever_connection_returns
    (W : Type) (extern : string -> list arg -> W -> reply * W)
    (failed : Z -> bool)
    (D : macros) (p : list stmt) (w w1 w2 : W) (v vc : Z) :
  build D = Binary p ->
  extern "printDebug" [StrLit log_message] w = (Returned v, w1) ->
  extern "makeConnection" [] w1 = (Returned vc, w2) ->
  outcome (exec extern p w) = Exited 0 /\
  (failed vc = false -> exit_success (outcome (exec extern p w)) = true) /\
  (failed vc = true -> exit_success (outcome (exec extern p w)) = true).
Proof.
  intros Hb Hlog Hconn. apply build_binary_inv in Hb as [-> _].
  rewrite (exec_enabled_after_log extern w w1 v Hlog), Hconn. cbn.
  repeat split; reflexivity.
Qed.

Lemma C3_witness :
  outcome (exec (stub (Returned 0) (Returned 1)) enabled_entry [])
    = Exited 0 /\
  (nonzero_is_failure 1 = false ->
   exit_success
     (outcome (exec (stub (Returned 0) (Returned 1)) enabled_entry []))
     = true) /\
  (nonzero_is_failure 1 = true ->
   exit_success
     (outcome (exec (stub (Returned 0) (Returned 1)) enabled_entry []))
     = true).
Proof.
  apply (C3_exit_success_whatever_connection_returns (list string)
           (stub (Returned 0) (Returned 1)) nonzero_is_failure flag_on
           enabled_entry [] ["printDebug"]
           ["printDebug"; "makeConnection"] 0%Z 1%Z).
  - vm_compute. reflexivity.
  - reflexivity.
  - reflexivity.
Defined.

(** ** Further properties of the build gate *)

(** X1: a build leaves a binary exactly when [ENABLE_NETWORKING] is
    defined, with any replacement text, and the entry point of that
    binary is always the logging call followed by the connection call:
    there is no empty or partial variant. *)
Theorem X1_binary_iff_flag_defined (D : macros) (p : list stmt) :
  build D = Binary p <->
  p = [CallStmt "printDebug" [StrLit "Connecting to network."];
       CallStmt "makeConnection" []] /\
  is_Some (D !! ENABLE_NETWORKING).
Proof.
  split.
  - intros Hb. apply build_binary_inv in Hb as [-> [t Ht]].
    split; [reflexivity | by exists t].
  - intros [-> [t Ht]]. exact (build_defined D t Ht).
Qed.

(** ** Further properties of a run *)

(** X3: when the logging call does not come back, the connection call
    is not made at all: the run is the logging call alone.  The
    process stays alive inside the callee if the callee blocks, and
    has the status the callee chose if the callee ended it. *)
Theorem X3_logging_does_not_return
    (W : Type) (extern : string -> list arg -> W -> reply * W)
    (D : macros) (p : list stmt) (w w1 : W) (r : reply) :
  build D = Binary p ->
  extern "printDebug" [StrLit log_message] w = (r, w1) ->
  (forall v : Z, r <> Returned v) ->
  trace (exec extern p w) = [log_event] /\
  count_calls "makeConnection" (trace (exec extern p w)) = 0 /\
  world (exec extern p w) = w1 /\
  (r = NoReturn -> outcome (exec extern p w) = InCall) /\
  (forall s : Z, r = Ends s -> outcome (exec extern p w) = Ended s).
Proof.
  intros Hb Hlog Hr. apply build_binary_inv in Hb as [-> _].
  rewrite (exec_enabled_log_stops extern w w1 r Hlog Hr). cbn.
  split; [reflexivity|]. split; [reflexivity|]. split; [reflexivity|].
  split.
  - by intros ->.
  - by intros s ->.
Qed.

Lemma X3_witness :
  trace (exec (stub (Ends 3) (Returned 0)) enabled_entry []) = [log_event] /\
  count_calls "makeConnection"
    (trace (exec (stub (Ends 3) (Returned 0)) enabled_entry [])) = 0 /\
  world (exec (stub (Ends 3) (Returned 0)) enabled_entry [])
    = ["printDebug"] /\
  (Ends 3 = NoReturn ->
   outcome (exec (stub (Ends 3) (Returned 0)) enabled_entry []) = InCall) /\
  (forall s : Z, Ends 3 = Ends s ->
   outcome (exec (stub (Ends 3) (Returned 0)) enabled_entry []) = Ended s).
Proof.
  apply (X3_logging_does_not_return (list string)
           (stub (Ends 3) (Returned 0)) flag_on enabled_entry
           [] ["printDebug"] (Ends 3)).
  - vm_compute. reflexivity.
  - reflexivity.
  - discriminate.
Defined.

(** X4: the controller neither bounds nor masks a connection call
    that does not come back.  Both calls have been made, once each;
    if the callee blocks the process stays alive inside it, and if
    the callee ends the process, the process has the status the
    callee chose. *)
Theorem X4_connection_does_not_return
    (W : Type) (extern : string -> list arg -> W -> reply * W)
    (D : macros) (p : list stmt) (w w1 w2 : W) (v : Z) (r : reply) :
  build D = Binary p ->
  extern "printDebug" [StrLit log_message] w = (Returned v, w1) ->
  extern "makeConnection" [] w1 = (r, w2) ->
  (forall vc : Z, r <> Returned vc) ->
  trace (exec extern p w) = [log_event; connect_event] /\
  world (exec extern p w) = w2 /\
  (r = NoReturn -> outcome (exec extern p w) = InCall) /\
  (forall s : Z, r = Ends s ->
     outcome (exec extern p w) = Ended s /\
     exit_failure (outcome (exec extern p w)) = negb (Z.eqb s 0)).
Proof.
  intros Hb Hlog Hconn Hr. apply build_binary_inv in Hb as [-> _].
  rewrite (exec_enabled_after_log extern w w1 v Hlog), Hconn. cbn.
  split; [reflexivity|]. split; [reflexivity|]. split.
  - by intros ->.
  - intros s ->. split; reflexivity.
Qed.

Lemma X4_witness :
  trace (exec (stub (Returned 0) (Ends 5)) enabled_entry [])
    = [log_event; connect_event] /\
  world (exec (stub (Returned 0) (Ends 5)) enabled_entry [])
    = ["printDebug"; "makeConnection"] /\
  (Ends 5 = NoReturn ->
   outcome (exec (stub (Returned 0) (Ends 5)) enabled_entry []) = InCall) /\
  (forall s : Z, Ends 5 = Ends s ->
     outcome (exec (stub (Returned 0) (Ends 5)) enabled_entry []) = Ended s /\
     exit_failure (outcome (exec (stub (Returned 0) (Ends 5)) enabled_entry []))
       = negb (Z.eqb s 0)).
Proof.
  apply (X4_connection_does_not_return (list string)
           (stub (Returned 0) (Ends 5)) flag_on enabled_entry
           [] ["printDebug"] ["printDebug"; "makeConnection"] 0%Z (Ends 5)).
  - vm_compute. reflexivity.
  - reflexivity.
  - reflexivity.
  - discriminate.
Defined.

(** X6: in every run of a built binary, with no assumption on the
    external functions, the logging call is made exactly once and is
    the first action, the connection call is made at most once and
    never before the logging call, and there are at most two calls. *)
Theorem X6_order_in_every_run
    (W : Type) (extern : string -> list arg -> W -> reply * W)
    (D : macros) (p : list stmt) (w : W) :
  build D = Binary p ->
  count_calls "printDebug" (trace (exec extern p w)) = 1 /\
  count_calls "makeConnection" (trace (exec extern p w)) <= 1 /\
  trace (exec extern p w) `prefix_of` [log_event; connect_event] /\
  (forall i : nat,
     trace (exec extern p w) !! i = Some connect_event -> i = 1) /\
  length (trace (exec extern p w)) <= 2.
Proof.
  intros Hb. apply build_binary_inv in Hb as [-> _].
  destruct (exec_enabled_shapes extern w) as [-> | ->].
  - split; [reflexivity|]. split; [cbn; lia|].
    split; [by exists [connect_event]|].
    split; [|cbn; lia].
    intros [|[|i]] Hi; cbn in Hi; try discriminate; reflexivity.
  - split; [reflexivity|]. split; [cbn; lia|].
    split; [reflexivity|].
    split; [|cbn; lia].
    intros [|[|[|i]]] Hi; cbn in Hi; try discriminate; reflexivity.
Qed.

Lemma X6_witness :
  count_calls "printDebug"
    (trace (exec (stub NoReturn NoReturn) enabled_entry [])) = 1 /\
  count_calls "makeConnection"
    (trace (exec (stub NoReturn NoReturn) enabled_entry [])) <= 1 /\
  trace (exec (stub NoReturn NoReturn) enabled_entry [])
    `prefix_of` [log_event; connect_event] /\
  (forall i : nat,
     trace (exec (stub NoReturn NoReturn) enabled_entry []) !! i
       = Some connect_event -> i = 1) /\
  length (trace (exec (stub NoReturn NoReturn) enabled_entry [])) <= 2.
Proof.
  apply (X6_order_in_every_run (list string) (stub NoReturn NoReturn)
           flag_on enabled_entry []).
  vm_compute. reflexivity.
Defined.

(** X7: [main] returns, the process then exiting with status 0,
    exactly when both calls come back: the logging call in the
    starting world, and the connection call in the world the logging
    call left.  In every other run control never reaches the closing
    brace of [main]. *)
Theorem X7_main_returns_iff_both_calls_return
    (W : Type) (extern : string -> list arg -> W -> reply * W)
    (D : macros) (p : list stmt) (w : W) :
  build D = Binary p ->
  (outcome (exec extern p w) = Exited 0 <->
   (exists (v vc : Z) (w1 w2 : W),
      extern "printDebug" [StrLit log_message] w = (Returned v, w1) /\
      extern "makeConnection" [] w1 = (Returned vc, w2))).
Proof.
  intros Hb. apply build_binary_inv in Hb as [-> _]. split.
  - intros Hs. cbn in Hs.
    destruct (extern "printDebug" [StrLit log_message] w)
      as [[v| |s] w1] eqn:Hlog; cbn in Hs; try discriminate.
    destruct (extern "makeConnection" [] w1)
      as [[vc| |s] w2] eqn:Hconn; cbn in Hs; try discriminate.
    by exists v, vc, w1, w2.
  - intros (v & vc & w1 & w2 & Hlog & Hconn).
    rewrite (exec_enabled_after_log extern w w1 v Hlog), Hconn.
    reflexivity.
Qed.

Lemma X7_witness :
  (outcome (exec (stub (Returned 0) (Returned 3)) enabled_entry [])
     = Exited 0 <->
   (exists (v vc : Z) (w1 w2 : list string),
      stub (Returned 0) (Returned 3) "printDebug" [StrLit log_message] []
        = (Returned v, w1) /\
      stub (Returned 0) (Returned 3) "makeConnection" [] w1
        = (Returned vc, w2))).
Proof.
  apply (X7_main_returns_iff_both_calls_return (list string)
           (stub (Returned 0) (Returned 3)) flag_on enabled_entry []).
  vm_compute. reflexivity.
Defined.
